(** * DataAnalyticsStack: the declared topology of the data-analytics stack

    A shallow embedding of [lib/data-analytics-infra-stack.ts].  The file
    holds one class, [DataAnalyticsStack], whose constructor registers a
    fixed sequence of constructs in the stack's scope.  The constructor is
    embedded as a computation in a state-and-error monad: the state is the
    stack under construction (the children registered so far, in
    declaration order), the error is the one the construct framework
    raises when an id is used twice in one scope or when a bucket asks
    for [autoDeleteObjects] without being destroyed with the stack.

    The property objects handed to each construct are records, one per
    props literal of the source, grouped in modules named after the
    imported namespaces ([ec2], [iam], [s3], [rds], ...).  Values that the
    framework resolves only at deployment ([dmsRole.roleArn],
    [this.account], ...) are tokens. *)

From Stdlib Require Import String Ascii List ZArith Bool Permutation.
From ExtLib Require Import Structures.Monad Structures.MonadState Structures.MonadExc.
From ExtLib Require Import Data.Monads.StateMonad Data.Monads.EitherMonad.
Import ListNotations.
Import MonadNotation.
Local Open Scope string_scope.
Local Open Scope Z_scope.
Local Open Scope monad_scope.

#[local] Existing Instance Monad_stateT.

(** ** Deploy-time values *)

(** The object a [new X(this, id, props)] expression evaluates to is used
    by the source in two ways only: it is passed on as a prop ([vpc],
    [bucket: dataLakeBucket]) or one of its attributes is read
    ([dmsRole.roleArn]).  It is represented by the id it was registered
    under. *)
Definition ConstructRef := string.

Inductive Token : Type :=
| AWS_AccountId
| AWS_Region
| Attr (target : ConstructRef) (attribute : string).

(** A template literal is a sequence of literal pieces and tokens; a plain
    string literal is the one-piece case. *)
Inductive Fragment : Type :=
| Lit (s : string)
| Tok (t : Token).

Definition Str := list Fragment.

Definition str (s : string) : Str := [Lit s].

Definition dq : string := String (ascii_of_nat 34) EmptyString.
Definition nl : string := String (ascii_of_nat 10) EmptyString.

(** ** Property objects, by namespace *)

Module cdk.
Inductive RemovalPolicy : Type :=
  | DESTROY
  | RETAIN
  | SNAPSHOT
  | RETAIN_ON_UPDATE_OR_DELETE.

Record Environment : Type := {
    account : option string;
    region : option string
  }.

(** Of the framework's stack props only [env] is kept: it is the one
    that [this.account] and [this.region], which the constructor reads,
    depend on.  The constructor passes the props on to [super] and reads
    nothing of them itself. *)
Record StackProps : Type := {
    env : option Environment
  }.

Record CfnOutputProps : Type := {
    value : Fragment;
    description : string
  }.
End cdk.

Module ec2.
Record VpcProps : Type := {
    maxAzs : Z;
    natGateways : Z
  }.

Inductive InstanceClass : Type := T2 | T3 | M5.
Inductive InstanceSize : Type := NANO | MICRO | SMALL | MEDIUM | LARGE.

Record InstanceType : Type := of_ {
    instanceClass : InstanceClass;
    instanceSize : InstanceSize
  }.

Inductive SubnetType : Type :=
  | PRIVATE_ISOLATED
  | PRIVATE_WITH_EGRESS
  | PUBLIC.

Record SubnetSelection : Type := {
    subnetType : SubnetType
  }.
End ec2.

Module iam.
Inductive Principal : Type :=
  | ServicePrincipal (service : string).

Inductive ManagedPolicy : Type :=
  | fromAwsManagedPolicyName (managedPolicyName : string).

Record RoleProps : Type := {
    assumedBy : Principal;
    managedPolicies : list ManagedPolicy
  }.
End iam.

Module s3.
Record BucketProps : Type := {
    removalPolicy : option cdk.RemovalPolicy;
    autoDeleteObjects : option bool
  }.
End s3.

Module rds.
Inductive PostgresEngineVersion : Type := VER_12_8 | VER_13_4 | VER_14_1.

Record PostgresInstanceEngineProps : Type := {
    version : PostgresEngineVersion
  }.

Inductive DatabaseInstanceEngine : Type :=
  | postgres (p : PostgresInstanceEngineProps).

Inductive Credentials : Type :=
  | fromGeneratedSecret (username : string)
  | fromPassword (username : string) (password : Fragment)
  | fromSecret (secret : ConstructRef).

Record DatabaseInstanceProps : Type := {
    engine : DatabaseInstanceEngine;
    vpc : ConstructRef;
    instanceType : ec2.InstanceType;
    multiAz : bool;
    allocatedStorage : Z;
    maxAllocatedStorage : Z;
    credentials : option Credentials;
    vpcSubnets : ec2.SubnetSelection;
    publiclyAccessible : option bool;
    removalPolicy : option cdk.RemovalPolicy
  }.
End rds.

Module redshift.
Inductive NodeType : Type := DC2_LARGE | DC2_8XLARGE | RA3_XLPLUS.

Record Login : Type := {
    masterUsername : string
  }.

(** [vpcSubnets] is an optional prop that the source leaves out; it is
    kept so that leaving it out can be stated. *)
Record ClusterProps : Type := {
    masterUser : Login;
    vpc : ConstructRef;
    vpcSubnets : option ec2.SubnetSelection;
    nodeType : NodeType;
    numberOfNodes : Z;
    defaultDatabaseName : string;
    publiclyAccessible : option bool;
    removalPolicy : option cdk.RemovalPolicy
  }.
End redshift.

Module glue.
Record DatabaseInputProperty : Type := {
    name : string
  }.

Record CfnDatabaseProps : Type := {
    catalogId : Fragment;
    databaseInput : DatabaseInputProperty
  }.

Record S3TargetProperty : Type := {
    path : Str
  }.

Record TargetsProperty : Type := {
    s3Targets : list S3TargetProperty
  }.

Record CfnCrawlerProps : Type := {
    role : Fragment;
    databaseName : Fragment;
    targets : TargetsProperty
  }.
End glue.

Module lambda.
Inductive Runtime : Type := NODEJS_16_X | NODEJS_18_X | NODEJS_20_X.

Inductive Code : Type :=
  | fromInline (code : string).

Record FunctionProps : Type := {
    runtime : Runtime;
    code : Code;
    handler : string
  }.
End lambda.

Module athena.
Record ResultConfigurationProperty : Type := {
    outputLocation : Str
  }.

Record WorkGroupConfigurationProperty : Type := {
    resultConfiguration : ResultConfigurationProperty
  }.

Record CfnWorkGroupProps : Type := {
    name : string;
    state : string;
    workGroupConfiguration : WorkGroupConfigurationProperty
  }.
End athena.

Module quicksight.
Record DataSetReferenceProperty : Type := {
    dataSetArn : string;
    dataSetPlaceholder : string
  }.

Record DashboardSourceTemplateProperty : Type := {
    arn : Str;
    dataSetReferences : list DataSetReferenceProperty
  }.

Record DashboardSourceEntityProperty : Type := {
    sourceTemplate : DashboardSourceTemplateProperty
  }.

Record CfnDashboardProps : Type := {
    awsAccountId : Fragment;
    dashboardId : string;
    name : string;
    sourceEntity : DashboardSourceEntityProperty
  }.
End quicksight.

Module cloudwatch.
Record MetricProps : Type := {
    namespace : string;
    metricName : string;
    dimensionsMap : list (string * Fragment)
  }.

Inductive Metric : Type :=
  | new_Metric (p : MetricProps).

Record AlarmProps : Type := {
    metric : Metric;
    threshold : Z;
    evaluationPeriods : Z
  }.
End cloudwatch.

Module cloudtrail.
Record TrailProps : Type := {
    bucket : ConstructRef
  }.
End cloudtrail.

(** ** Constructs and the stack *)

(** One constructor per construct class the source instantiates, and one
    for the provider of the custom resource that empties a bucket, which
    the framework's [Bucket] registers in the stack on its own when
    [autoDeleteObjects] is set. *)
Inductive Construct : Type :=
| Vpc (p : ec2.VpcProps)
| Role (p : iam.RoleProps)
| Bucket (p : s3.BucketProps)
| DatabaseInstance (p : rds.DatabaseInstanceProps)
| Cluster (p : redshift.ClusterProps)
| CfnDatabase (p : glue.CfnDatabaseProps)
| CfnCrawler (p : glue.CfnCrawlerProps)
| Function_ (p : lambda.FunctionProps)
| CfnWorkGroup (p : athena.CfnWorkGroupProps)
| CfnDashboard (p : quicksight.CfnDashboardProps)
| Alarm (p : cloudwatch.AlarmProps)
| Trail (p : cloudtrail.TrailProps)
| CfnOutput (p : cdk.CfnOutputProps)
| CustomResourceProvider (resourceType : string).

(** What the constructor takes from its [scope]: the path of ids from the
    root of the construct tree to it, and the account and region of the
    nearest enclosing stage, where that stage was given an environment. *)
Record Scope : Type := {
  scopePath : list string;
  stageAccount : option string;
  stageRegion : option string
}.


(** The stack under construction.  [children] is in declaration order. *)
Record Stack : Type := {
  parent : Scope;
  stackId : string;
  account : Fragment;
  region : Fragment;
  children : list (string * Construct)
}.

Fixpoint tryFindChild (cs : list (string * Construct)) (id : string) : option Construct :=
  match cs with
  | [] => None
  | (i, c) :: rest => if String.eqb i id then Some c else tryFindChild rest id
  end.

Definition findChild (s : Stack) (id : string) : option Construct :=
  tryFindChild (children s) id.

Definition addChild (s : Stack) (id : string) (c : Construct) : Stack :=
  {| parent := parent s;
     stackId := stackId s;
     account := account s;
     region := region s;
     children := children s ++ [(id, c)] |}.

Definition propsAccount (props : option cdk.StackProps) : option string :=
  match props with
  | Some {| cdk.env := Some e |} => cdk.account e
  | _ => None
  end.

Definition propsRegion (props : option cdk.StackProps) : option string :=
  match props with
  | Some {| cdk.env := Some e |} => cdk.region e
  | _ => None
  end.

(** [props?.env?.account], else the account of the enclosing stage, else
    the deploy-time pseudo parameter of an environment-agnostic stack;
    likewise for the region. *)
Definition envAccount (scope : Scope) (props : option cdk.StackProps) : Fragment :=
  match propsAccount props with
  | Some a => Lit a
  | None =>
      match stageAccount scope with
      | Some a => Lit a
      | None => Tok AWS_AccountId
      end
  end.

Definition envRegion (scope : Scope) (props : option cdk.StackProps) : Fragment :=
  match propsRegion props with
  | Some r => Lit r
  | None =>
      match stageRegion scope with
      | Some r => Lit r
      | None => Tok AWS_Region
      end
  end.

(** The id a construct is known by: every path separator of the id it was
    given is replaced by two dashes. *)
Fixpoint sanitizeId (id : string) : string :=
  match id with
  | EmptyString => EmptyString
  | String c rest =>
      if Ascii.eqb c "/"%char then String "-" (String "-" (sanitizeId rest))
      else String c (sanitizeId rest)
  end.

(** [super(scope, id, props)] where it returns: a stack with no children
    yet, known by the sanitized id, in the account and region its
    environment resolves to.  Of the props only [env] is read here.  The
    framework's own refusals of a stack (an empty id, an id already taken
    in [scope], a stack name that is not a valid one) happen inside the
    framework before the constructor's own statements run and have no
    counterpart here. *)
Definition super (scope : Scope) (id : string) (props : option cdk.StackProps) : Stack :=
  {| parent := scope;
     stackId := sanitizeId id;
     account := envAccount scope props;
     region := envRegion scope props;
     children := [] |}.

(** ** The constructor monad *)

Definition ctor : Type -> Type := stateT Stack (sum string).

(** The message names the scope by its class and, unless it is empty, by
    its id. *)
Definition duplicateName (id scopeId : string) : string :=
  "There is already a Construct with name '" ++ id ++ "' in DataAnalyticsStack" ++
  (if String.eqb scopeId "" then "" else " [" ++ scopeId ++ "]").

Definition autoDeleteWithoutDestroy : string :=
  "Cannot use 'autoDeleteObjects' property on a bucket without setting removal policy to 'DESTROY'.".

Definition AUTO_DELETE_OBJECTS_RESOURCE_TYPE : string := "Custom::S3AutoDeleteObjects".

Definition autoDeleteProviderId : string :=
  AUTO_DELETE_OBJECTS_RESOURCE_TYPE ++ "CustomResourceProvider".

(** Adding a child to the stack: the framework refuses an id that is
    already taken in the scope. *)
Definition register (id : string) (c : Construct) : ctor ConstructRef :=
  this <- get ;;
  match findChild this id with
  | Some _ => raise (duplicateName id (stackId this))
  | None => put (addChild this id c) ;; ret id
  end.

(** The stack has one provider for emptying buckets, made when the first
    bucket needs it and found again by its id afterwards. *)
Definition getOrCreateProvider : ctor unit :=
  this <- get ;;
  match findChild this autoDeleteProviderId with
  | Some _ => ret tt
  | None =>
      _ <- register autoDeleteProviderId
             (CustomResourceProvider AUTO_DELETE_OBJECTS_RESOURCE_TYPE) ;;
      ret tt
  end.

(** What a construct's own constructor does to the stack once it is
    registered.  A bucket with [autoDeleteObjects] must be destroyed with
    the stack, and brings the provider in; the other constructs add
    nothing at the level of the stack. *)
Definition afterRegistration (c : Construct) : ctor unit :=
  match c with
  | Bucket p =>
      match s3.autoDeleteObjects p with
      | Some true =>
          match s3.removalPolicy p with
          | Some cdk.DESTROY => getOrCreateProvider
          | _ => raise autoDeleteWithoutDestroy
          end
      | _ => ret tt
      end
  | _ => ret tt
  end.

(** [new X(this, id, props)]: registers the construct under [id] in the
    stack, lets it set itself up, and evaluates to the new object. *)
Definition new (id : string) (c : Construct) : ctor ConstructRef :=
  r <- register id c ;;
  _ <- afterRegistration c ;;
  ret r.

Definition this_account : ctor Fragment := this <- get ;; ret (account this).
Definition this_region : ctor Fragment := this <- get ;; ret (region this).

(** Attribute reads on a construct object. *)
Definition roleArn (r : ConstructRef) : Fragment := Tok (Attr r "roleArn").
Definition ref (r : ConstructRef) : Fragment := Tok (Attr r "ref").
Definition bucketName (r : ConstructRef) : Fragment := Tok (Attr r "bucketName").
Definition bucketWebsiteUrl (r : ConstructRef) : Fragment := Tok (Attr r "bucketWebsiteUrl").
Definition clusterName (r : ConstructRef) : Fragment := Tok (Attr r "clusterName").

(** ** The source of the inline Lambda handler *)

Definition transformSource : string :=
  nl ++
  "        exports.handler = async (event) => {" ++ nl ++
  "          console.log(" ++ dq ++ "Data transformation in progress" ++ dq ++ ");" ++ nl ++
  "          return event;" ++ nl ++
  "        };" ++ nl ++
  "      ".

(** ** The constructor of [DataAnalyticsStack] *)

Definition DataAnalyticsStack_body : ctor unit :=
  (* Define VPC for RDS and Redshift *)
  vpc <- new "AnalyticsVpc" (Vpc {|
    ec2.maxAzs := 2;
    ec2.natGateways := 1
  |}) ;;

  (* 1. Data Ingestion - AWS DMS setup *)
  dmsRole <- new "DMSRole" (Role {|
    iam.assumedBy := iam.ServicePrincipal "dms.amazonaws.com";
    iam.managedPolicies := [
      iam.fromAwsManagedPolicyName "AmazonDMSVPCManagementRole";
      iam.fromAwsManagedPolicyName "AmazonDMSRedshiftS3Role";
      iam.fromAwsManagedPolicyName "AmazonS3FullAccess"
    ]
  |}) ;;

  (* 2. Data Storage - S3 Bucket for raw data *)
  dataLakeBucket <- new "DataLakeBucket" (Bucket {|
    s3.removalPolicy := Some cdk.DESTROY;
    s3.autoDeleteObjects := Some true
  |}) ;;

  (* RDS instance for transactional data *)
  rdsInstance <- new "RDSInstance" (DatabaseInstance {|
    rds.engine := rds.postgres {| rds.version := rds.VER_13_4 |};
    rds.vpc := vpc;
    rds.instanceType := ec2.of_ ec2.T3 ec2.MICRO;
    rds.multiAz := false;
    rds.allocatedStorage := 100;
    rds.maxAllocatedStorage := 200;
    rds.credentials := Some (rds.fromGeneratedSecret "admin");
    rds.vpcSubnets := {| ec2.subnetType := ec2.PUBLIC |};
    rds.publiclyAccessible := Some true;
    rds.removalPolicy := Some cdk.DESTROY
  |}) ;;

  (* Redshift Cluster for data warehouse *)
  redshiftCluster <- new "RedshiftCluster" (Cluster {|
    redshift.masterUser := {| redshift.masterUsername := "admin" |};
    redshift.vpc := vpc;
    redshift.vpcSubnets := None;
    redshift.nodeType := redshift.DC2_LARGE;
    redshift.numberOfNodes := 2;
    redshift.defaultDatabaseName := "analyticsdb";
    redshift.publiclyAccessible := Some true;
    redshift.removalPolicy := Some cdk.DESTROY
  |}) ;;

  (* 3. Data Processing and Transformation - Glue and Lambda *)
  account1 <- this_account ;;
  glueDatabase <- new "GlueDatabase" (CfnDatabase {|
    glue.catalogId := account1;
    glue.databaseInput := {| glue.name := "analytics_database" |}
  |}) ;;

  glueCrawler <- new "GlueCrawler" (CfnCrawler {|
    glue.role := roleArn dmsRole;
    glue.databaseName := ref glueDatabase;
    glue.targets := {|
      glue.s3Targets := [
        {| glue.path := [Lit "s3://"; bucketName dataLakeBucket] |}
      ]
    |}
  |}) ;;

  transformFunction <- new "TransformFunction" (Function_ {|
    lambda.runtime := lambda.NODEJS_18_X;
    lambda.code := lambda.fromInline transformSource;
    lambda.handler := "index.handler"
  |}) ;;

  (* 4. Query and Analyze - Athena *)
  athenaWorkgroup <- new "AthenaWorkgroup" (CfnWorkGroup {|
    athena.name := "AthenaWorkgroup";
    athena.state := "ENABLED";
    athena.workGroupConfiguration := {|
      athena.resultConfiguration := {|
        athena.outputLocation :=
          [Lit "s3://"; bucketName dataLakeBucket; Lit "/athena-results/"]
      |}
    |}
  |}) ;;

  (* 5. Visualize Data - QuickSight *)
  account2 <- this_account ;;
  region1 <- this_region ;;
  account3 <- this_account ;;
  quickSightDashboard <- new "QuickSightDashboard" (CfnDashboard {|
    quicksight.awsAccountId := account2;
    quicksight.dashboardId := "analytics_dashboard";
    quicksight.name := "Analytics Dashboard";
    quicksight.sourceEntity := {|
      quicksight.sourceTemplate := {|
        quicksight.arn :=
          [Lit "arn:aws:quicksight:"; region1; Lit ":"; account3;
           Lit ":template/YourTemplateId"];
        quicksight.dataSetReferences := [
          {| quicksight.dataSetArn := "arn:aws:quicksight:::dataset/YourDataSetId";
             quicksight.dataSetPlaceholder := "dataset_placeholder" |}
        ]
      |}
    |}
  |}) ;;

  (* 6. Monitor and Secure - CloudWatch and CloudTrail *)
  cloudWatchAlarm <- new "RedshiftCPUAlarm" (Alarm {|
    cloudwatch.metric := cloudwatch.new_Metric {|
      cloudwatch.namespace := "AWS/Redshift";
      cloudwatch.metricName := "CPUUtilization";
      cloudwatch.dimensionsMap := [
        ("ClusterIdentifier", clusterName redshiftCluster)
      ]
    |};
    cloudwatch.threshold := 80;
    cloudwatch.evaluationPeriods := 3
  |}) ;;

  trail <- new "CloudTrail" (Trail {|
    cloudtrail.bucket := dataLakeBucket
  |}) ;;

  (* Output S3 bucket URL for debugging *)
  _ <- new "S3BucketURL" (CfnOutput {|
    cdk.value := bucketWebsiteUrl dataLakeBucket;
    cdk.description := "The S3 bucket URL where data is stored"
  |}) ;;
  ret tt.

(** [new DataAnalyticsStack(scope, id, props)]: the stack as the
    constructor leaves it, or the error it threw. *)
Definition DataAnalyticsStack (scope : Scope) (id : string)
    (props : option cdk.StackProps) : string + Stack :=
  match runStateT DataAnalyticsStack_body (super scope id props) with
  | inl e => inl e
  | inr (_, this) => inr this
  end.

(** ** Vocabulary of the properties *)

(** The class a construct is an instance of. *)
Inductive ConstructClass : Type :=
| ec2_Vpc
| iam_Role
| s3_Bucket
| rds_DatabaseInstance
| redshift_Cluster
| glue_CfnDatabase
| glue_CfnCrawler
| lambda_Function
| athena_CfnWorkGroup
| quicksight_CfnDashboard
| cloudwatch_Alarm
| cloudtrail_Trail
| cdk_CfnOutput
| cdk_CustomResourceProvider.

Definition classOf (c : Construct) : ConstructClass :=
  match c with
  | Vpc _ => ec2_Vpc
  | Role _ => iam_Role
  | Bucket _ => s3_Bucket
  | DatabaseInstance _ => rds_DatabaseInstance
  | Cluster _ => redshift_Cluster
  | CfnDatabase _ => glue_CfnDatabase
  | CfnCrawler _ => glue_CfnCrawler
  | Function_ _ => lambda_Function
  | CfnWorkGroup _ => athena_CfnWorkGroup
  | CfnDashboard _ => quicksight_CfnDashboard
  | Alarm _ => cloudwatch_Alarm
  | Trail _ => cloudtrail_Trail
  | CfnOutput _ => cdk_CfnOutput
  | CustomResourceProvider _ => cdk_CustomResourceProvider
  end.

Definition declaredIds (s : Stack) : list string := map fst (children s).









(** The constructs that hold data. *)
Definition isDataStore (c : Construct) : bool :=
  match c with
  | Bucket _ | DatabaseInstance _ | Cluster _ => true
  | _ => false
  end.

Definition removalPolicyOf (c : Construct) : option cdk.RemovalPolicy :=
  match c with
  | Bucket p => s3.removalPolicy p
  | DatabaseInstance p => rds.removalPolicy p
  | Cluster p => redshift.removalPolicy p
  | _ => None
  end.

Definition usesGeneratedSecret (c : option rds.Credentials) : bool :=
  match c with
  | Some (rds.fromGeneratedSecret _) => true
  | _ => false
  end.

Definition stackIdsUnique (s : Stack) : Prop := NoDup (declaredIds s).

(** ** References between constructs *)

(** The construct a deploy-time value reads an attribute of, if any.  The
    account and region pseudo parameters belong to no construct. *)
Definition fragmentRefs (f : Fragment) : list ConstructRef :=
  match f with
  | Tok (Attr r _) => [r]
  | _ => []
  end.

Definition strRefs (s : Str) : list ConstructRef := flat_map fragmentRefs s.

Definition credentialsRefs (c : option rds.Credentials) : list ConstructRef :=
  match c with
  | Some (rds.fromSecret r) => [r]
  | Some (rds.fromPassword _ pw) => fragmentRefs pw
  | _ => []
  end.

(** The constructs a construct's props mention, in the order of the props:
    objects passed on ([vpc], [bucket]) and attributes read
    ([dmsRole.roleArn], [dataLakeBucket.bucketName], ...). *)
Definition references (c : Construct) : list ConstructRef :=
  match c with
  | Vpc _ | Role _ | Bucket _ | Function_ _ | CustomResourceProvider _ => []
  | DatabaseInstance p => rds.vpc p :: credentialsRefs (rds.credentials p)
  | Cluster p => [redshift.vpc p]
  | CfnDatabase p => fragmentRefs (glue.catalogId p)
  | CfnCrawler p =>
      (fragmentRefs (glue.role p) ++ fragmentRefs (glue.databaseName p) ++
       flat_map (fun t => strRefs (glue.path t)) (glue.s3Targets (glue.targets p)))%list
  | CfnWorkGroup p =>
      strRefs (athena.outputLocation
                 (athena.resultConfiguration (athena.workGroupConfiguration p)))
  | CfnDashboard p =>
      (fragmentRefs (quicksight.awsAccountId p) ++
       strRefs (quicksight.arn (quicksight.sourceTemplate (quicksight.sourceEntity p))))%list
  | Alarm p =>
      match cloudwatch.metric p with
      | cloudwatch.new_Metric m =>
          flat_map (fun kv => fragmentRefs (snd kv)) (cloudwatch.dimensionsMap m)
      end
  | Trail p => [cloudtrail.bucket p]
  | CfnOutput p => fragmentRefs (cdk.value p)
  end.

(** One edge [(a, b)] per reference: [b]'s props mention [a], so [a] has
    to exist before [b]. *)
Definition dependencyEdges (cs : list (string * Construct)) : list (ConstructRef * string) :=
  flat_map (fun ic => map (fun r => (r, fst ic)) (references (snd ic))) cs.

(** Every reference of every child names an id in [declared] or a child
    that comes earlier in the list. *)
Fixpoint wellScoped (declared : list string) (cs : list (string * Construct)) : bool :=
  match cs with
  | [] => true
  | (i, c) :: rest =>
      forallb (fun r => existsb (String.eqb r) declared) (references c)
      && wellScoped (declared ++ [i]) rest
  end.

(** [a] stands strictly before [b] in the list of ids. *)
Definition declaredBefore (a b : string) (ids : list string) : Prop :=
  exists n m, nth_error ids n = Some a /\ nth_error ids m = Some b /\ (n < m)%nat.

(** The constructs of a class among the children. *)
Definition idsOfClass (k : ConstructClass) (s : Stack) : list string :=
  map fst (filter (fun ic =>
    match classOf (snd ic), k with
    | ec2_Vpc, ec2_Vpc | iam_Role, iam_Role | s3_Bucket, s3_Bucket
    | rds_DatabaseInstance, rds_DatabaseInstance
    | redshift_Cluster, redshift_Cluster
    | glue_CfnDatabase, glue_CfnDatabase | glue_CfnCrawler, glue_CfnCrawler
    | lambda_Function, lambda_Function
    | athena_CfnWorkGroup, athena_CfnWorkGroup
    | quicksight_CfnDashboard, quicksight_CfnDashboard
    | cloudwatch_Alarm, cloudwatch_Alarm | cloudtrail_Trail, cloudtrail_Trail
    | cdk_CfnOutput, cdk_CfnOutput
    | cdk_CustomResourceProvider, cdk_CustomResourceProvider => true
    | _, _ => false
    end) (children s)).

(** ** The registration step *)

Lemma tryFindChild_app cs cs' id :
  tryFindChild (cs ++ cs') id =
  match tryFindChild cs id with
  | Some c => Some c
  | None => tryFindChild cs' id
  end.
Proof.
  induction cs as [| [i c] cs IH]; simpl; [reflexivity |].
  destruct (String.eqb i id); [reflexivity | exact IH].
Qed.

Lemma tryFindChild_None cs id :
  tryFindChild cs id = None <-> ~ In id (map fst cs).
Proof.
  induction cs as [| [i c] cs IH]; simpl.
  - tauto.
  - destruct (String.eqb_spec i id) as [-> | Hne].
    + split; [discriminate | intros H; exfalso; apply H; now left].
    + rewrite IH. split; [intros H [E | HIn]; auto | intros H HIn; apply H; now right].
Qed.

Lemma tryFindChild_In cs id c :
  tryFindChild cs id = Some c -> In (id, c) cs.
Proof.
  induction cs as [| [i c'] cs IH]; simpl; [discriminate |].
  destruct (String.eqb_spec i id) as [-> | Hne].
  - intros [= ->]. now left.
  - intros H. right. now apply IH.
Qed.

(** A fresh id registers the construct last and yields its reference. *)
Lemma register_fresh s id c :
  findChild s id = None ->
  runStateT (register id c) s = inr (id, addChild s id c).
Proof.
  intros H. unfold register. cbn. rewrite H. reflexivity.
Qed.

(** An id already taken in the scope makes the constructor throw, and no
    stack is returned at all. *)
Lemma register_taken s id c c' :
  findChild s id = Some c' ->
  runStateT (register id c) s = inl (duplicateName id (stackId s)).
Proof.
  intros H. unfold register. cbn. rewrite H. reflexivity.
Qed.

Lemma new_taken s id c c' :
  findChild s id = Some c' ->
  runStateT (new id c) s = inl (duplicateName id (stackId s)).
Proof.
  intros H. unfold new. cbn -[register]. rewrite (register_taken _ _ _ _ H). reflexivity.
Qed.

(** A bucket that asks for [autoDeleteObjects] without [DESTROY] is
    refused, fresh id or not. *)
Lemma new_bucket_needs_destroy s id p :
  findChild s id = None ->
  s3.autoDeleteObjects p = Some true ->
  s3.removalPolicy p <> Some cdk.DESTROY ->
  runStateT (new id (Bucket p)) s = inl autoDeleteWithoutDestroy.
Proof.
  intros Hf Ha Hr. unfold new. cbn -[register afterRegistration].
  rewrite (register_fresh _ _ _ Hf). cbn.
  rewrite Ha. destruct (s3.removalPolicy p) as [[| | |] |]; try reflexivity.
  now contradiction Hr.
Qed.

Lemma findChild_addChild_same s id c :
  findChild s id = None ->
  findChild (addChild s id c) id = Some c.
Proof.
  unfold findChild, addChild. cbn. intros H.
  rewrite tryFindChild_app, H. cbn. now rewrite String.eqb_refl.
Qed.

Lemma findChild_addChild_other s id id' c :
  id <> id' ->
  findChild (addChild s id c) id' = findChild s id'.
Proof.
  unfold findChild, addChild. cbn. intros Hne.
  rewrite tryFindChild_app. destruct (tryFindChild (children s) id'); [reflexivity |].
  cbn. destruct (String.eqb_spec id id'); [contradiction | reflexivity].
Qed.

(** Registration keeps the ids of a scope pairwise distinct. *)
Lemma register_preserves_unique s id c r s' :
  stackIdsUnique s ->
  runStateT (register id c) s = inr (r, s') ->
  stackIdsUnique s' /\ r = id /\ children s' = (children s ++ [(id, c)])%list.
Proof.
  intros Hu Hrun. unfold register in Hrun. cbn in Hrun.
  destruct (findChild s id) eqn:Hf; cbn in Hrun; [discriminate |].
  injection Hrun as <- <-. repeat split.
  unfold stackIdsUnique, declaredIds, addChild. cbn.
  rewrite map_app. cbn.
  apply NoDup_app; [assumption | repeat constructor; intros [] | ].
  intros x Hx [<- | []]. now apply tryFindChild_None in Hf.
Qed.

(** ** What the constructor declares *)

(** Runs the constructor to its final stack and supplies that stack as
    the witness of a goal [exists s, DataAnalyticsStack _ _ _ = inr s /\ _]. *)
Ltac run_constructor :=
  eexists; split; [vm_compute; reflexivity |].



(** Case analysis over the entries of an explicit list of children. *)
Ltac each_child H :=
  cbn in H;
  repeat (destruct H as [H | H]; [try discriminate H | ]);
  try contradiction.

Section Construction.

Variable scope : Scope.
Variable id : string.
Variable props : option cdk.StackProps.

(** The ids under which the children of the stack are registered are
    pairwise distinct. *)
Lemma DataAnalyticsStack_ids_unique :
  exists s, DataAnalyticsStack scope id props = inr s /\ stackIdsUnique s.
Proof.
  run_constructor. unfold stackIdsUnique. cbn.
  repeat (constructor; [cbn; intuition discriminate |]). constructor.
Qed.

(** C1: constructing the stack declares the RDS database instance with
    [publiclyAccessible: true] and credentials taken from a generated
    secret, and the Redshift cluster with [publiclyAccessible: true].
    These are the only database instance and the only cluster of the
    stack. *)
Theorem C1_public_endpoints_generated_secret :
  exists s rdsProps clusterProps,
    DataAnalyticsStack scope id props = inr s /\
    findChild s "RDSInstance" = Some (DatabaseInstance rdsProps) /\
    rds.publiclyAccessible rdsProps = Some true /\
    usesGeneratedSecret (rds.credentials rdsProps) = true /\
    rds.credentials rdsProps = Some (rds.fromGeneratedSecret "admin") /\
    findChild s "RedshiftCluster" = Some (Cluster clusterProps) /\
    redshift.publiclyAccessible clusterProps = Some true /\
    (forall i p, In (i, DatabaseInstance p) (children s) -> i = "RDSInstance") /\
    (forall i p, In (i, Cluster p) (children s) -> i = "RedshiftCluster").
Proof.
  eexists; eexists; eexists.
  split; [vm_compute; reflexivity |].
  split; [vm_compute; reflexivity |].
  split; [reflexivity |]. split; [reflexivity |]. split; [reflexivity |].
  split; [vm_compute; reflexivity |].
  split; [reflexivity |].
  split; intros i p H; each_child H; congruence.
Qed.


(** C9: every data store the stack declares (the S3 bucket, the RDS
    instance, the Redshift cluster) carries [RemovalPolicy.DESTROY], and
    the bucket has [autoDeleteObjects: true]. *)
Theorem C9_data_stores_destroyed_with_stack :
  exists s bucketProps rdsProps clusterProps,
    DataAnalyticsStack scope id props = inr s /\
    findChild s "DataLakeBucket" = Some (Bucket bucketProps) /\
    s3.removalPolicy bucketProps = Some cdk.DESTROY /\
    s3.autoDeleteObjects bucketProps = Some true /\
    findChild s "RDSInstance" = Some (DatabaseInstance rdsProps) /\
    rds.removalPolicy rdsProps = Some cdk.DESTROY /\
    findChild s "RedshiftCluster" = Some (Cluster clusterProps) /\
    redshift.removalPolicy clusterProps = Some cdk.DESTROY /\
    (forall i c, In (i, c) (children s) -> isDataStore c = true ->
       removalPolicyOf c = Some cdk.DESTROY) /\
    (forall i c, In (i, c) (children s) -> isDataStore c = true ->
       In i ["DataLakeBucket"; "RDSInstance"; "RedshiftCluster"]).
Proof.
  eexists; eexists; eexists; eexists.
  split; [vm_compute; reflexivity |].
  split; [vm_compute; reflexivity |].
  split; [reflexivity |]. split; [reflexivity |].
  split; [vm_compute; reflexivity |].
  split; [reflexivity |].
  split; [vm_compute; reflexivity |].
  split; [reflexivity |].
  split; intros i c H Hstore; each_child H;
    injection H as <- <-; cbn in Hstore |- *;
    first [discriminate Hstore | reflexivity | tauto].
Qed.

(** C10: the Glue crawler's [role] is the ARN of the role registered as
    ["DMSRole"], the role assumed by the DMS service; that role carries
    the AWS managed policy [AmazonS3FullAccess]; it is the only role the
    stack declares, so the crawler is given no role scoped to the
    data-lake bucket. *)
Theorem C10_crawler_runs_under_dms_role :
  exists s crawlerProps roleProps,
    DataAnalyticsStack scope id props = inr s /\
    findChild s "GlueCrawler" = Some (CfnCrawler crawlerProps) /\
    glue.role crawlerProps = roleArn "DMSRole" /\
    findChild s "DMSRole" = Some (Role roleProps) /\
    iam.assumedBy roleProps = iam.ServicePrincipal "dms.amazonaws.com" /\
    In (iam.fromAwsManagedPolicyName "AmazonS3FullAccess")
       (iam.managedPolicies roleProps) /\
    iam.managedPolicies roleProps =
      [ iam.fromAwsManagedPolicyName "AmazonDMSVPCManagementRole";
        iam.fromAwsManagedPolicyName "AmazonDMSRedshiftS3Role";
        iam.fromAwsManagedPolicyName "AmazonS3FullAccess" ] /\
    (forall i p, In (i, Role p) (children s) -> i = "DMSRole") /\
    (forall i p, In (i, CfnCrawler p) (children s) -> i = "GlueCrawler").
Proof.
  eexists; eexists; eexists.
  split; [vm_compute; reflexivity |].
  split; [vm_compute; reflexivity |].
  split; [reflexivity |].
  split; [vm_compute; reflexivity |].
  split; [reflexivity |].
  split; [cbn; tauto |].
  split; [reflexivity |].
  split; intros i p H; each_child H; congruence.
Qed.

End Construction.


(** ** References and declaration order *)

(** The account and the region of a stack are a literal or a pseudo
    parameter, never an attribute of a construct. *)
Lemma fragmentRefs_envAccount scope props : fragmentRefs (envAccount scope props) = [].
Proof.
  unfold envAccount. destruct (propsAccount props); [reflexivity |].
  destruct (stageAccount scope); reflexivity.
Qed.

Lemma fragmentRefs_envRegion scope props : fragmentRefs (envRegion scope props) = [].
Proof.
  unfold envRegion. destruct (propsRegion props); [reflexivity |].
  destruct (stageRegion scope); reflexivity.
Qed.

Lemma existsb_eqb_In r ids : existsb (String.eqb r) ids = true -> In r ids.
Proof.
  intros H. apply existsb_exists in H as (x & Hx & E).
  apply String.eqb_eq in E. now subst x.
Qed.

(** In a well-scoped list of children every dependency edge points
    forward: the construct referred to was declared before the one that
    refers to it (or was there from the start, in [declared]). *)
Lemma wellScoped_edges_forward cs : forall declared a b,
  wellScoped declared cs = true ->
  In (a, b) (dependencyEdges cs) ->
  declaredBefore a b (declared ++ map fst cs).
Proof.
  induction cs as [| [i c] rest IH]; intros declared a b Hws Hin.
  - contradiction.
  - cbn in Hws. apply andb_true_iff in Hws as [Hrefs Hrest].
    cbn in Hin. apply in_app_or in Hin as [Hin | Hin].
    + apply in_map_iff in Hin as (r & E & Hr). injection E as -> ->.
      rewrite forallb_forall in Hrefs. specialize (Hrefs _ Hr).
      apply existsb_eqb_In in Hrefs.
      destruct (In_nth_error _ _ Hrefs) as [n Hn].
      exists n, (length declared). repeat split.
      * rewrite nth_error_app1; [exact Hn |].
        apply nth_error_Some. now rewrite Hn.
      * rewrite nth_error_app2, Nat.sub_diag by apply Nat.le_refl. reflexivity.
      * apply nth_error_Some. now rewrite Hn.
    + specialize (IH (declared ++ [i])%list a b Hrest Hin).
      now rewrite <- app_assoc in IH.
Qed.

Section Coverage.

Variable scope : Scope.
Variable id : string.
Variable props : option cdk.StackProps.

(** X2: no construct of the stack refers to a construct that is missing
    or declared later: every reference in a child's props names a child
    declared strictly before it, so the declaration order is a
    topological order of the stack's dependency edges (and there is no
    cycle of references). *)
Theorem X2_references_point_backwards :
  exists s,
    DataAnalyticsStack scope id props = inr s /\
    wellScoped [] (children s) = true /\
    (forall a b, In (a, b) (dependencyEdges (children s)) ->
       declaredBefore a b (declaredIds s)) /\
    (forall a b, In (a, b) (dependencyEdges (children s)) -> a <> b).
Proof.
  assert (Hws : forall sc p, exists s, DataAnalyticsStack sc id p = inr s /\
                          wellScoped [] (children s) = true).
  { intros [path [sa|] [sr|]] [[[[[a|] [r|]]|]]|]; run_constructor; reflexivity. }
  destruct (Hws scope props) as (s & Hs & Hws'). clear Hws. rename Hws' into Hws.
  exists s.
  assert (Hfwd : forall a b, In (a, b) (dependencyEdges (children s)) ->
                   declaredBefore a b (declaredIds s)).
  { intros a b Hin. exact (wellScoped_edges_forward _ [] a b Hws Hin). }
  repeat split; try assumption.
  intros a b Hin E. subst b.
  destruct (Hfwd _ _ Hin) as (n & m & Hn & Hm & Hlt).
  destruct (DataAnalyticsStack_ids_unique scope id props) as (s' & Hs' & Hu).
  rewrite Hs in Hs'. injection Hs' as <-.
  assert (n = m); [| subst; now apply Nat.lt_irrefl in Hlt].
  apply (proj1 (NoDup_nth_error (declaredIds s)) Hu).
  - apply nth_error_Some. now rewrite Hn.
  - now rewrite Hn, Hm.
Qed.

(** X3: the dependency edges of the stack are these nine.  The DMS role is
    used by the Glue crawler and by nothing else, and no construct refers
    to the RDS instance or to the transform function. *)
Theorem X3_dependency_edges :
  exists s,
    DataAnalyticsStack scope id props = inr s /\
    dependencyEdges (children s) =
      [ ("AnalyticsVpc", "RDSInstance");
        ("AnalyticsVpc", "RedshiftCluster");
        ("DMSRole", "GlueCrawler");
        ("GlueDatabase", "GlueCrawler");
        ("DataLakeBucket", "GlueCrawler");
        ("DataLakeBucket", "AthenaWorkgroup");
        ("RedshiftCluster", "RedshiftCPUAlarm");
        ("DataLakeBucket", "CloudTrail");
        ("DataLakeBucket", "S3BucketURL") ] /\
    (forall b, In ("DMSRole", b) (dependencyEdges (children s)) ->
       b = "GlueCrawler") /\
    (forall a b, In (a, b) (dependencyEdges (children s)) ->
       a <> "RDSInstance" /\ a <> "TransformFunction").
Proof.
  generalize scope props.
  intros [path [sa|] [sr|]] [[[[[a|] [r|]]|]]|]; run_constructor;
    (split; [reflexivity |]);
    (split; [intros b H | intros x b H]); each_child H;
    inversion H; subst; try reflexivity; split; discriminate.
Qed.

(** X4: the stack declares one bucket, and every S3 location it
    configures is in it: the crawler's only target is the root of the
    data-lake bucket, Athena writes its results under [/athena-results/]
    of that same root (so inside the crawled location), and CloudTrail
    delivers to the same bucket. *)
Theorem X4_single_shared_bucket :
  exists s crawlerProps workgroupProps trailProps root,
    DataAnalyticsStack scope id props = inr s /\
    idsOfClass s3_Bucket s = ["DataLakeBucket"] /\
    root = [Lit "s3://"; bucketName "DataLakeBucket"] /\
    findChild s "GlueCrawler" = Some (CfnCrawler crawlerProps) /\
    glue.s3Targets (glue.targets crawlerProps) = [{| glue.path := root |}] /\
    findChild s "AthenaWorkgroup" = Some (CfnWorkGroup workgroupProps) /\
    athena.outputLocation
      (athena.resultConfiguration (athena.workGroupConfiguration workgroupProps)) =
      (root ++ [Lit "/athena-results/"])%list /\
    findChild s "CloudTrail" = Some (Trail trailProps) /\
    cloudtrail.bucket trailProps = "DataLakeBucket".
Proof.
  eexists; eexists; eexists; eexists; eexists.
  split; [vm_compute; reflexivity |].
  split; [reflexivity |].
  split; [reflexivity |].
  split; [vm_compute; reflexivity |].
  split; [reflexivity |].
  split; [vm_compute; reflexivity |].
  split; [reflexivity |].
  split; [vm_compute; reflexivity |].
  reflexivity.
Qed.

(** X5: the stack declares one VPC and both databases are placed in it.
    Both are declared publicly accessible; the RDS instance selects the
    VPC's public subnets, whereas the Redshift cluster passes no subnet
    selection at all, so where it is placed is left to the framework's
    default and not chosen to match. *)
Theorem X5_databases_in_the_one_vpc :
  exists s,
    DataAnalyticsStack scope id props = inr s /\
    idsOfClass ec2_Vpc s = ["AnalyticsVpc"] /\
    idsOfClass rds_DatabaseInstance s = ["RDSInstance"] /\
    idsOfClass redshift_Cluster s = ["RedshiftCluster"] /\
    (forall i p, In (i, DatabaseInstance p) (children s) ->
       rds.vpc p = "AnalyticsVpc" /\
       rds.publiclyAccessible p = Some true /\
       ec2.subnetType (rds.vpcSubnets p) = ec2.PUBLIC) /\
    (forall i p, In (i, Cluster p) (children s) ->
       redshift.vpc p = "AnalyticsVpc" /\
       redshift.publiclyAccessible p = Some true /\
       redshift.vpcSubnets p = None).
Proof.
  run_constructor. repeat (split; [reflexivity |]).
  split; intros i p H; each_child H; injection H as <- <-; cbn; auto.
Qed.

(** X8: the Glue database's catalog and the QuickSight dashboard are
    declared in the stack's own account, and the dashboard's source
    template ARN is built from the stack's region and account. *)
Theorem X8_catalog_and_dashboard_in_stack_account :
  exists s databaseProps dashboardProps,
    DataAnalyticsStack scope id props = inr s /\
    findChild s "GlueDatabase" = Some (CfnDatabase databaseProps) /\
    glue.catalogId databaseProps = account s /\
    findChild s "QuickSightDashboard" = Some (CfnDashboard dashboardProps) /\
    quicksight.awsAccountId dashboardProps = account s /\
    quicksight.arn (quicksight.sourceTemplate (quicksight.sourceEntity dashboardProps)) =
      [ Lit "arn:aws:quicksight:"; region s; Lit ":"; account s;
        Lit ":template/YourTemplateId" ].
Proof.
  eexists; eexists; eexists.
  split; [vm_compute; reflexivity |].
  split; [vm_compute; reflexivity |].
  split; [reflexivity |].
  split; [vm_compute; reflexivity |].
  split; reflexivity.
Qed.

(** X9: the Lambda function's handler is [index.] followed by a name that
    the inline code assigns on [exports]; the inline code is not empty and
    is at most 4096 characters long. *)
Theorem X9_inline_handler_is_exported :
  exists s functionProps source export,
    DataAnalyticsStack scope id props = inr s /\
    findChild s "TransformFunction" = Some (Function_ functionProps) /\
    lambda.code functionProps = lambda.fromInline source /\
    lambda.handler functionProps = "index." ++ export /\
    String.index 0 ("exports." ++ export ++ " = ") source = Some 9%nat /\
    source <> "" /\
    (String.length source <= 4096)%nat.
Proof.
  eexists; eexists; eexists; exists "handler".
  split; [vm_compute; reflexivity |].
  split; [vm_compute; reflexivity |].
  split; [reflexivity |].
  split; [reflexivity |].
  split; [vm_compute; reflexivity |].
  split; [discriminate |].
  apply Nat.leb_le. vm_compute. reflexivity.
Qed.

End Coverage.

(** ** The constructor's own statements, from any fresh stack *)







